(** * Segment trees of [haiku_baselines/common/segment_tree.py]

    A shallow embedding of the array-backed segment tree that drives
    prioritized replay sampling, and the properties of its operations.

    Modelling conventions.
    - Python integers are [Z]; [//] on a positive divisor is [Z.div]
      (both round towards minus infinity); [&] is [Z.land].  An integer
      that jax takes in (an index, an argument of a jitted function, an
      element of [jnp.array]) becomes an [int32]; the embedding covers the
      integers that fit, and the statements that depend on it carry that
      bound.
    - A [jnp.ndarray] is an immutable [list].  Indexing an array reads with
      the JAX rules: a negative index is wrapped once by the length and the
      result is clamped into the array.  [a.at[i].set(v)] is a pure function
      that returns the updated copy and leaves [a] as it is; where the source
      writes it as a statement, the copy is computed and dropped.
    - [jax.jit] turns the arguments of the function it wraps into tracers.
      A tracer has a shape Python can read ([len]) and entries it cannot:
      [bool(...)] of a tracer, which [if], [while], [and] and [or] ask for,
      and a numpy function given a tracer raise a jax [TypeError].  The
      jitted functions of the source are [unique] (line 5),
      [_reduce_helper] (line 47), [_setitem_helper] (line 48) and
      [_find_prefixsum_idx_helper] (line 120).
    - Floating point numbers are idealised as rationals in canonical form
      ([Qc]); [float('inf')] is a separate top element.
    - A call either returns, raises, or does not finish: loops and
      recursion take a fuel argument, spent by one for every turn of a loop
      and every level of a recursion, and answer [OutOfFuel] when it is
      needed and gone. *)

From Stdlib Require Import ZArith List Bool Lia QArith Qcanon.
Import ListNotations.
Open Scope Z_scope.

(** ** Outcomes of a call *)

(** An [AssertionError] carries the line of the [assert] that failed, a
    [TypeError] the line of the statement that asked for the entries of a
    tracer, as the traceback of the source does. *)
Inductive exn : Set :=
| AssertionError (line : Z)
| TypeError (line : Z)
| IndexError
| ValueError.

Inductive result (A : Type) : Type :=
| Ok (a : A)
| Raise (e : exn)
| OutOfFuel.

Arguments Ok {A} a.
Arguments Raise {A} e.
Arguments OutOfFuel {A}.

Definition bind {A B : Type} (r : result A) (k : A -> result B) : result B :=
  match r with
  | Ok a => k a
  | Raise e => Raise e
  | OutOfFuel => OutOfFuel
  end.

Notation "x <- r ;; k" := (bind r (fun x => k))
  (at level 61, r at next level, right associativity).
Notation "'do_' r ;; k" := (bind r (fun _ => k))
  (at level 61, r at next level, right associativity).

(** [assert b], written on line [line] of the source. *)
Definition py_assert (line : Z) (b : bool) : result unit :=
  if b then Ok tt else Raise (AssertionError line).

(** A Python argument that is either one scalar or an array of them. *)
Inductive arg (A : Type) : Type :=
| Scalar (x : A)
| Array (l : list A).

Arguments Scalar {A} x.
Arguments Array {A} l.

Definition arg_map {A B : Type} (f : A -> B) (a : arg A) : arg B :=
  match a with
  | Scalar x => Scalar (f x)
  | Array l => Array (map f l)
  end.

(** ** Values under [jax.jit] *)

(** A value as Python holds it: concrete, or a tracer.  A tracer is
    modelled by the value the compiled function would compute, which
    Python cannot look at. *)
Inductive traced (A : Type) : Type :=
| Concrete (x : A)
| Tracer (x : A).

Arguments Concrete {A} x.
Arguments Tracer {A} x.

Definition value_of {A : Type} (j : traced A) : A :=
  match j with
  | Concrete x => x
  | Tracer x => x
  end.

(** What [jax.jit] does to an argument of the function it wraps. *)
Definition trace {A : Type} (j : traced A) : traced A := Tracer (value_of j).

(** An operation of jax or of Python arithmetic: the result is a tracer
    as soon as an operand is one. *)
Definition op1 {A B : Type} (f : A -> B) (a : traced A) : traced B :=
  match a with
  | Concrete x => Concrete (f x)
  | Tracer x => Tracer (f x)
  end.

Definition op2 {A B C : Type} (f : A -> B -> C) (a : traced A) (b : traced B)
  : traced C :=
  match a, b with
  | Concrete x, Concrete y => Concrete (f x y)
  | _, _ => Tracer (f (value_of a) (value_of b))
  end.

Definition op3 {A B C D : Type} (f : A -> B -> C -> D) (a : traced A)
    (b : traced B) (c : traced C) : traced D :=
  match a, b, c with
  | Concrete x, Concrete y, Concrete z => Concrete (f x y z)
  | _, _, _ => Tracer (f (value_of a) (value_of b) (value_of c))
  end.

(** [bool(b)], as the statement on line [line] asks it. *)
Definition to_bool (line : Z) (b : traced bool) : result bool :=
  match b with
  | Concrete x => Ok x
  | Tracer _ => Raise (TypeError line)
  end.

(** A numpy function, on line [line], converting its argument to an
    [np.ndarray]. *)
Definition to_numpy {A : Type} (line : Z) (a : traced A) : result A :=
  match a with
  | Concrete x => Ok x
  | Tracer _ => Raise (TypeError line)
  end.

(** A boolean array used as an index, [a[mask]]: the shape of the result
    depends on its entries, and jax refuses a tracer with an error that
    is an [IndexError]. *)
Definition to_mask (mask : traced (list bool)) : result (list bool) :=
  match mask with
  | Concrete m => Ok m
  | Tracer _ => Raise IndexError
  end.

Definition is_tracer {A : Type} (j : traced A) : bool :=
  match j with
  | Concrete _ => false
  | Tracer _ => true
  end.

(** What a jitted function hands back: a tracer to a caller that is
    itself being traced, a concrete array to any other. *)
Definition hand_back {A : Type} (tracing : bool) (j : traced A) : traced A :=
  if tracing then Tracer (value_of j) else Concrete (value_of j).

(** ** Array primitives *)

Module Jnp.
Section Arrays.
Context {A : Type}.

Definition len (a : list A) : Z := Z.of_nat (length a).

(** [jnp.full(n, x)] *)
Definition full (n : Z) (x : A) : list A := repeat x (Z.to_nat n).

(** A negative index counts from the end. *)
Definition wrap (n i : Z) : Z := if i <? 0 then i + n else i.

(** Reading [a[i]]: wrapped, then clamped into [0, len a). *)
Definition get (d : A) (a : list A) (i : Z) : A :=
  nth (Z.to_nat (Z.max 0 (Z.min (wrap (len a) i) (len a - 1)))) a d.

(** Reading [a[idxs]] for an integer array [idxs]. *)
Definition gather (d : A) (a : list A) (idxs : list Z) : list A :=
  map (get d a) idxs.

Fixpoint update (a : list A) (n : nat) (x : A) : list A :=
  match a, n with
  | [], _ => []
  | _ :: a', O => x :: a'
  | y :: a', S n' => y :: update a' n' x
  end.

(** One write of a scatter: wrapped, and dropped when out of bounds. *)
Definition set1 (a : list A) (i : Z) (x : A) : list A :=
  let j := wrap (len a) i in
  if (0 <=? j) && (j <? len a) then update a (Z.to_nat j) x else a.

Fixpoint scatter (a : list A) (idxs : list Z) (vals : list A) : list A :=
  match idxs, vals with
  | i :: idxs', x :: vals' => scatter (set1 a i x) idxs' vals'
  | _, _ => a
  end.

(** [a.at[idxs].set(vals)]: the updated copy, or an error when [vals]
    does not have the shape of [idxs] (a scalar is broadcast). *)
Definition at_set (a : list A) (idxs : arg Z) (vals : arg A)
  : result (list A) :=
  match idxs, vals with
  | Scalar i, Scalar x => Ok (set1 a i x)
  | Scalar _, Array _ => Raise ValueError
  | Array l, Scalar x => Ok (scatter a l (repeat x (length l)))
  | Array l, Array xs =>
      match xs with
      | [x] => Ok (scatter a l (repeat x (length l)))
      | _ => if (length xs =? length l)%nat then Ok (scatter a l xs)
             else Raise ValueError
      end
  end.
End Arrays.
End Jnp.

(** ** [unique]

    Jitted on line 5.  Its argument is a tracer: an array of one element
    is handed back as it is; for any other length line 16 gives the traced
    comparison to [np.append], which cannot convert it. *)

Fixpoint zip_with {A B C : Type} (f : A -> B -> C) (l : list A) (r : list B)
  : list C :=
  match l, r with
  | x :: l', y :: r' => f x y :: zip_with f l' r'
  | _, _ => []
  end.

(** [a[mask]] for a boolean array [mask]: the shapes must agree. *)
Fixpoint mask_filter {A : Type} (a : list A) (mask : list bool) : list A :=
  match a, mask with
  | x :: a', b :: mask' =>
      if b then x :: mask_filter a' mask' else mask_filter a' mask'
  | _, _ => []
  end.

Definition mask_select {A : Type} (a : list A) (mask : list bool)
  : result (list A) :=
  if (length mask =? length a)%nat then Ok (mask_filter a mask)
  else Raise IndexError.

Definition unique (sorted_array : traced (list Z))
  : result (traced (list Z)) :=
  let tracing := is_tracer sorted_array in
  let sorted_array := trace sorted_array in
  r <- (if Jnp.len (value_of sorted_array) =? 1 then Ok sorted_array
        else
          let left := op1 (@removelast Z) sorted_array in
          let right := op1 (@tl Z) sorted_array in
          differs <- to_numpy 16
                       (op2 (zip_with (fun r l => negb (r =? l))) right left) ;;
          let uniques := differs ++ [true] in
          selected <- mask_select (value_of sorted_array) uniques ;;
          Ok (op1 (fun _ => selected) sorted_array)) ;;
  Ok (hand_back tracing r).

(** ** The generic engine *)

Module SegmentTree.
Section Engine.
Variable V : Type.
Variable _operation : V -> V -> V.
Variable neutral_element : V.

Record t : Type := Build { _capacity : Z; _value : list V }.

Notation "a .[ i ]" := (Jnp.get neutral_element a i)
  (at level 1, left associativity, format "a .[ i ]").

Definition __init__ (capacity : Z) : result t :=
  do_ py_assert 41
        ((0 <? capacity) && (Z.land capacity (capacity - 1) =? 0)) ;;
  Ok {| _capacity := capacity;
        _value := Jnp.full (2 * capacity) neutral_element |}.

(** The method as line 47 rebinds it, [jax.jit(self._reduce_helper)]:
    every argument arrives as a tracer, also in the calls the function
    makes to itself.  The fuel is spent by the recursive calls. *)
Fixpoint _reduce_helper (fuel : nat) (_value : traced (list V))
    (start end_ node node_start node_end : traced Z) : result (traced V) :=
  let tracing := is_tracer _value || is_tracer start || is_tracer end_
                 || is_tracer node || is_tracer node_start
                 || is_tracer node_end in
  let _value := trace _value in
  let start := trace start in
  let end_ := trace end_ in
  let node := trace node in
  let node_start := trace node_start in
  let node_end := trace node_end in
  r <- (at_start <- to_bool 51 (op2 Z.eqb start node_start) ;;
        whole <- (if at_start then to_bool 51 (op2 Z.eqb end_ node_end)
                  else Ok false) ;;
        if whole then Ok (op2 (fun a i => a.[i]) _value node)
        else
          let mid := op1 (fun s => s / 2) (op2 Z.add node_start node_end) in
          match fuel with
          | O => OutOfFuel
          | S fuel' =>
              in_left <- to_bool 55 (op2 Z.leb end_ mid) ;;
              if in_left
              then _reduce_helper fuel' _value start end_
                     (op1 (fun n => 2 * n) node) node_start mid
              else
                in_right <- to_bool 58
                              (op2 Z.leb (op1 (fun m => m + 1) mid) start) ;;
                if in_right
                then _reduce_helper fuel' _value start end_
                       (op1 (fun n => 2 * n + 1) node)
                       (op1 (fun m => m + 1) mid) node_end
                else
                  l <- _reduce_helper fuel' _value start mid
                         (op1 (fun n => 2 * n) node) node_start mid ;;
                  r <- _reduce_helper fuel' _value
                         (op1 (fun m => m + 1) mid) end_
                         (op1 (fun n => 2 * n + 1) node)
                         (op1 (fun m => m + 1) mid) node_end ;;
                  Ok (op2 _operation l r)
          end) ;;
  Ok (hand_back tracing r).

Definition reduce (fuel : nat) (self : t) (start : Z) (end_ : option Z)
  : result V :=
  let end_ := match end_ with None => _capacity self | Some e => e end in
  let end_ := if end_ <? 0 then end_ + _capacity self else end_ in
  let end_ := end_ - 1 in
  r <- _reduce_helper fuel (Concrete (_value self)) (Concrete start)
         (Concrete end_) (Concrete 1) (Concrete 0)
         (Concrete (_capacity self - 1)) ;;
  Ok (value_of r).

(** The [while] loop of [_setitem_helper].  Its condition reads
    [len(idxs) > 1] off the shape; only when that fails does [or] go on to
    [idxs[0] > 0], an entry of [idxs]; indexing an axis of size 0 is an
    [IndexError].  The update of the parents is a statement, so its
    result is dropped.  The fuel is spent by the turns of the loop. *)
Fixpoint _setitem_loop (fuel : nat) (_value : traced (list V))
    (idxs : traced (list Z)) : result (traced (list V)) :=
  again <- (if 1 <? Jnp.len (value_of idxs) then Ok true
            else if Jnp.len (value_of idxs) =? 0 then Raise IndexError
            else to_bool 86 (op1 (fun l => 0 <? Jnp.get 0 l 0) idxs)) ;;
  if again
  then
    match fuel with
    | O => OutOfFuel
    | S fuel' =>
        do_ Jnp.at_set (value_of _value) (Array (value_of idxs))
              (Array (zip_with _operation
                 (Jnp.gather neutral_element (value_of _value)
                    (map (fun i => 2 * i) (value_of idxs)))
                 (Jnp.gather neutral_element (value_of _value)
                    (map (fun i => 2 * i + 1) (value_of idxs))))) ;;
        idxs' <- unique (op1 (map (fun i => i / 2)) idxs) ;;
        _setitem_loop fuel' _value idxs'
    end
  else Ok _value.

(** The method as line 48 rebinds it, [jax.jit(self._setitem_helper)]. *)
Definition _setitem_helper (fuel : nat) (_value : traced (list V))
    (idxs : traced (list Z)) : result (traced (list V)) :=
  let tracing := is_tracer _value || is_tracer idxs in
  let _value := trace _value in
  let idxs := trace idxs in
  r <- (idxs <- unique (op1 (map (fun i => i / 2)) idxs) ;;
        _setitem_loop fuel _value idxs) ;;
  Ok (hand_back tracing r).

(** A method that assigns to [self] answers the object as the call leaves
    it and the outcome of the call.  [__setitem__] assigns on its last
    line only, with what [_setitem_helper] returned; the write of line 100
    is a statement, its result dropped. *)
Definition __setitem__ (fuel : nat) (self : t) (idx : arg Z) (val : arg V)
  : t * result unit :=
  let idxs := arg_map (fun i => i + _capacity self) idx in
  match Jnp.at_set (_value self) idxs val with
  | Ok _ =>
      let idxs := match idxs with Scalar i => [i] | Array l => l end in
      match _setitem_helper fuel (Concrete (_value self)) (Concrete idxs) with
      | Ok v =>
          ({| _capacity := _capacity self; _value := value_of v |}, Ok tt)
      | Raise e => (self, Raise e)
      | OutOfFuel => (self, OutOfFuel)
      end
  | Raise e => (self, Raise e)
  | OutOfFuel => (self, OutOfFuel)
  end.

Definition arg_max (a : arg Z) : result Z :=
  match a with
  | Scalar x => Ok x
  | Array [] => Raise ValueError
  | Array (x :: l) => Ok (fold_left Z.max l x)
  end.

Definition arg_min (a : arg Z) : result Z :=
  match a with
  | Scalar x => Ok x
  | Array [] => Raise ValueError
  | Array (x :: l) => Ok (fold_left Z.min l x)
  end.

Definition __getitem__ (self : t) (idx : arg Z) : result (arg V) :=
  m <- arg_max idx ;;
  do_ py_assert 107 (m <? _capacity self) ;;
  m <- arg_min idx ;;
  do_ py_assert 108 (0 <=? m) ;;
  Ok (arg_map (fun i => (_value self).[_capacity self + i]) idx).

End Engine.
End SegmentTree.

(** ** Sum trees *)

Module SumSegmentTree.

(** [x <= y] and [x > y] on floats. *)
Definition leb (x y : Qc) : bool :=
  match (x ?= y)%Qc with Gt => false | _ => true end.

Definition gtb (x y : Qc) : bool :=
  match (x ?= y)%Qc with Gt => true | _ => false end.

Definition t : Type := SegmentTree.t Qc.

Definition __init__ (capacity : Z) : result t :=
  SegmentTree.__init__ Qc 0%Qc capacity.

Definition __setitem__ := SegmentTree.__setitem__ Qc Qcplus 0%Qc.
Definition __getitem__ := SegmentTree.__getitem__ Qc 0%Qc.

Definition sum (fuel : nat) (self : t) (start : Z) (end_ : option Z)
  : result Qc :=
  SegmentTree.reduce Qc Qcplus 0%Qc fuel self start end_.

(** [a.at[mask].set(vals)] for a boolean [mask] of the shape of [a]. *)
Fixpoint mask_set {A : Type} (a : list A) (mask : list bool) (vals : list A)
  : list A :=
  match a, mask with
  | x :: a', true :: mask' =>
      match vals with
      | v :: vals' => v :: mask_set a' mask' vals'
      | [] => x :: mask_set a' mask' []
      end
  | x :: a', false :: mask' => x :: mask_set a' mask' vals
  | _, _ => a
  end.

(** [jnp.where(c, x, y)] on arrays of one shape. *)
Fixpoint where_ {A : Type} (c : list bool) (x y : list A) : list A :=
  match c, x, y with
  | b :: c', u :: x', v :: y' => (if b then u else v) :: where_ c' x' y'
  | _, _, _ => []
  end.

(** The [while] loop of [_find_prefixsum_idx_helper]: its condition asks
    for [bool(jnp.any(cont))].  The first statement of the body,
    [idx.at[cont].set(2 * idx[cont])], indexes with the mask [cont] and
    drops the doubled indices: [idx] is what it was on the next line.  The
    fuel is spent by the turns of the loop. *)
Fixpoint _find_prefixsum_idx_loop (fuel : nat) (capacity : Z)
    (_value : traced (list Qc)) (idx : traced (list Z))
    (cont : traced (list bool)) (prefixsum : traced (list Qc))
  : result (traced (list Z)) :=
  any <- to_bool 136 (op1 (existsb (fun b => b)) cont) ;;
  if any
  then
    match fuel with
    | O => OutOfFuel
    | S fuel' =>
        mask <- to_mask cont ;;
        let _ := op1 (fun i => mask_set i mask
                                 (map (fun k => 2 * k) (mask_filter i mask)))
                     idx in
        let prefixsum_new :=
          op3 where_
              (op2 (zip_with leb) (op2 (Jnp.gather 0%Qc) _value idx)
                   prefixsum)
              (op2 (zip_with Qcminus) prefixsum
                   (op2 (Jnp.gather 0%Qc) _value idx))
              prefixsum in
        let idx :=
          op3 where_
              (op2 (zip_with orb)
                   (op2 (zip_with gtb) (op2 (Jnp.gather 0%Qc) _value idx)
                        prefixsum)
                   (op1 (map negb) cont))
              idx (op1 (map (fun i => i + 1)) idx) in
        let prefixsum := prefixsum_new in
        let cont := op1 (map (fun i => i <? capacity)) idx in
        _find_prefixsum_idx_loop fuel' capacity _value idx cont prefixsum
    end
  else Ok (op1 (map (fun i => i - capacity)) idx).

(** The method as line 120 rebinds it,
    [jax.jit(self._find_prefixsum_idx_helper)].  The arrays that
    [jnp.ones] makes while the function is traced are tracers as well. *)
Definition _find_prefixsum_idx_helper (fuel : nat) (self : t)
    (_value : traced (list Qc)) (prefixsum : traced (list Qc))
  : result (traced (list Z)) :=
  let tracing := is_tracer _value || is_tracer prefixsum in
  let _value := trace _value in
  let prefixsum := trace prefixsum in
  let idx := Tracer (repeat 1 (length (value_of prefixsum))) in
  let cont := Tracer (repeat true (length (value_of prefixsum))) in
  r <- _find_prefixsum_idx_loop fuel (SegmentTree._capacity Qc self) _value
         idx cont prefixsum ;;
  Ok (hand_back tracing r).

Definition array_min (a : list Qc) : result Qc :=
  match a with
  | [] => Raise ValueError
  | x :: l => Ok (fold_left (fun m y => if leb y m then y else m) l x)
  end.

Definition array_max (a : list Qc) : result Qc :=
  match a with
  | [] => Raise ValueError
  | x :: l => Ok (fold_left (fun m y => if leb m y then y else m) l x)
  end.

(** [1e-5] *)
Definition epsilon : Qc := Q2Qc (1 # 100000).

(** The argument of [find_prefixsum_idx]: a Python float, or the
    documented [np.ndarray] of doubles. *)
Inductive targets : Type :=
| PyFloat (p : Qc)
| NdArray (ps : list Qc).

(** A float is wrapped: [jnp.array([prefixsum])]. *)
Definition targets_array (prefixsum : targets) : list Qc :=
  match prefixsum with
  | PyFloat p => [p]
  | NdArray ps => ps
  end.

(** [isinstance(prefixsum[0], float)]: an element of an [np.ndarray] of
    doubles is an [np.float64], which is a Python float; an element of the
    array that [jnp.array] built is again a jax array, which is not. *)
Definition element_is_float (prefixsum : targets) : bool :=
  match prefixsum with
  | PyFloat _ => false
  | NdArray _ => true
  end.

(** The assertion of line 163 evaluates [jnp.max(prefixsum)], then calls
    [self.sum()]: an exception of that call leaves through the
    assertion. *)
Definition find_prefixsum_idx (fuel : nat) (self : t) (prefixsum : targets)
  : result (list Z) :=
  let ps := targets_array prefixsum in
  lo <- array_min ps ;;
  do_ py_assert 162 (leb 0%Qc lo) ;;
  hi <- array_max ps ;;
  total <- sum fuel self 0 None ;;
  do_ py_assert 163 (leb hi (total + epsilon)%Qc) ;;
  do_ py_assert 164 (element_is_float prefixsum) ;;
  r <- _find_prefixsum_idx_helper fuel self
         (Concrete (SegmentTree._value Qc self)) (Concrete ps) ;;
  Ok (value_of r).

End SumSegmentTree.

(** ** Min trees *)

Module MinSegmentTree.

(** Values of a min tree: a number or [float('inf')]. *)
Inductive value : Type :=
| Finite (q : Qc)
| Inf.

(** [jnp.minimum] *)
Definition minimum (x y : value) : value :=
  match x, y with
  | Inf, _ => y
  | _, Inf => x
  | Finite a, Finite b => if SumSegmentTree.leb a b then x else y
  end.

Definition t : Type := SegmentTree.t value.

Definition __init__ (capacity : Z) : result t :=
  SegmentTree.__init__ value Inf capacity.

Definition __setitem__ := SegmentTree.__setitem__ value minimum Inf.
Definition __getitem__ := SegmentTree.__getitem__ value Inf.

Definition min (fuel : nat) (self : t) (start : Z) (end_ : option Z)
  : result value :=
  SegmentTree.reduce value minimum Inf fuel self start end_.

End MinSegmentTree.

(** * Vocabulary of the specification *)

(** ** Consistent trees *)

Definition power_of_two (c : Z) : Prop := exists k : nat, c = 2 ^ Z.of_nat k.

(** [lo, lo+1, ..., lo+n-1] *)
Definition Zseq (lo : Z) (n : nat) : list Z :=
  map (fun k => lo + Z.of_nat k) (seq 0 n).

(** The operation folded from the left over a list that is not empty. *)
Definition fold1 {A : Type} (f : A -> A -> A) (d : A) (l : list A) : A :=
  match l with
  | [] => d
  | x :: r => fold_left f r x
  end.

(** An integer that fits the [int32] of a jax index. *)
Definition int32 (z : Z) : Prop := - 2 ^ 31 <= z < 2 ^ 31.

Section TreeVocabulary.
Variable V : Type.
Variable _operation : V -> V -> V.
Variable neutral_element : V.

(** [storage[k]] *)
Definition storage (self : SegmentTree.t V) (k : Z) : V :=
  Jnp.get neutral_element (SegmentTree._value V self) k.

(** Every internal node holds the operation of its two children. *)
Definition consistent (self : SegmentTree.t V) : Prop :=
  forall k, 1 <= k < SegmentTree._capacity V self ->
    storage self k
    = _operation (storage self (2 * k)) (storage self (2 * k + 1)).

(** The value of logical slot [i]. *)
Definition leaf (self : SegmentTree.t V) (i : Z) : V :=
  storage self (SegmentTree._capacity V self + i).

(** The leaves of [start, stop), in order. *)
Definition leaves (self : SegmentTree.t V) (start stop : Z) : list V :=
  map (leaf self) (Zseq start (Z.to_nat (stop - start))).

(** The shape the constructor gives a tree: a positive capacity and
    [2 * capacity] slots, each within reach of an [int32] index. *)
Definition shaped (self : SegmentTree.t V) : Prop :=
  0 < SegmentTree._capacity V self /\
  Jnp.len (SegmentTree._value V self) = 2 * SegmentTree._capacity V self /\
  int32 (2 * SegmentTree._capacity V self).

End TreeVocabulary.

(** ** Sequences of updates *)

Section Calls.
Variable V : Type.
Variable _operation : V -> V -> V.
Variable neutral_element : V.

(** One update of the tree: [set(i, v)] or [setBatch(idxs, vals)]. *)
Inductive call : Type :=
| Set_ (i : Z) (v : V)
| SetBatch (idxs : list Z) (vals : list V).

(** The tree as the call leaves it, and the outcome of the call. *)
Definition apply_call (fuel : nat) (self : SegmentTree.t V) (c : call)
  : SegmentTree.t V * result unit :=
  match c with
  | Set_ i v =>
      SegmentTree.__setitem__ V _operation neutral_element fuel self
        (Scalar i) (Scalar v)
  | SetBatch idxs vals =>
      SegmentTree.__setitem__ V _operation neutral_element fuel self
        (Array idxs) (Array vals)
  end.

(** The calls one after the other, each on the tree the last one left,
    the caller going on after an exception; the outcomes come in the
    order of the calls. *)
Fixpoint run_calls (fuel : nat) (self : SegmentTree.t V) (cs : list call)
  : SegmentTree.t V * list (result unit) :=
  match cs with
  | [] => (self, [])
  | c :: cs' =>
      let (self', r) := apply_call fuel self c in
      let (self'', rs) := run_calls fuel self' cs' in
      (self'', r :: rs)
  end.

(** [set(i1, v1); set(i2, v2); ...] *)
Definition sequential_sets (idxs : list Z) (vals : list V) : list call :=
  zip_with Set_ idxs vals.

End Calls.

Arguments Set_ {V} i v.
Arguments SetBatch {V} idxs vals.

(** ** How a call can end *)

(** The call ended: it returned or it raised. *)
Definition ends {A : Type} (r : result A) : Prop :=
  match r with
  | OutOfFuel => False
  | _ => True
  end.


(** The failure the specification calls [PrefixSumOutOfRange]: one of the
    two range assertions of [find_prefixsum_idx]. *)
Definition PrefixSumOutOfRange {A : Type} (r : result A) : Prop :=
  r = Raise (AssertionError 162) \/ r = Raise (AssertionError 163).

(** ** The descent of [findPrefixSumIndex], as the specification words it

    Start at the root with the target as remaining budget; at an internal
    node look at the left child's aggregate: when it exceeds the budget go
    left, otherwise go right and take it off the budget; at a leaf answer
    its slot. *)

Fixpoint spec_descent (steps : nat) (capacity : Z) (storage : list Qc)
    (node : Z) (remaining : Qc) : option Z :=
  if capacity <=? node then Some (node - capacity)
  else
    match steps with
    | O => None
    | S steps' =>
        let leftSum := Jnp.get 0%Qc storage (2 * node) in
        if SumSegmentTree.gtb leftSum remaining
        then spec_descent steps' capacity storage (2 * node) remaining
        else spec_descent steps' capacity storage (2 * node + 1)
               (remaining - leftSum)%Qc
    end.

Definition spec_findPrefixSumIndex (self : SumSegmentTree.t) (prefixSum : Qc)
  : option Z :=
  spec_descent (Z.to_nat (SegmentTree._capacity Qc self))
    (SegmentTree._capacity Qc self) (SegmentTree._value Qc self) 1 prefixSum.

(** ** The trees of the concrete scenario *)

Definition Qc_of_Z (z : Z) : Qc := Q2Qc (inject_Z z).

(** Capacity 8, every slot [0.0]: what [SumSegmentTree(8)] builds. *)
Definition fresh8 : SumSegmentTree.t :=
  SegmentTree.Build Qc 8 (Jnp.full 16 0%Qc).

(** The storage the scenario of the specification describes: capacity 8
    with the leaves [1, 2, 3, 5, 0, 0, 0, 0] and the sums of the children
    in every internal node. *)
Definition scenario8 : SumSegmentTree.t :=
  SegmentTree.Build Qc 8
    (map Qc_of_Z [0; 11; 11; 0; 3; 8; 0; 0; 1; 2; 3; 5; 0; 0; 0; 0]).

(** Capacity 4, every slot [inf]: what [MinSegmentTree(4)] builds. *)
Definition fresh_min4 : MinSegmentTree.t :=
  SegmentTree.Build MinSegmentTree.value 4 (Jnp.full 8 MinSegmentTree.Inf).

(** * Properties *)

(** ** Reading arrays *)

Lemma len_full {A : Type} (n : Z) (x : A) :
  0 <= n -> Jnp.len (Jnp.full n x) = n.
Proof.
  intros H. unfold Jnp.len, Jnp.full. rewrite repeat_length. lia.
Qed.

Lemma get_full {A : Type} (d x : A) (n i : Z) :
  0 < n -> Jnp.get d (Jnp.full n x) i = x.
Proof.
  intros H. unfold Jnp.get. rewrite len_full by lia.
  unfold Jnp.full. apply nth_repeat_lt.
  unfold Jnp.wrap; destruct (i <? 0); lia.
Qed.

Lemma at_set_arrays {A : Type} (a : list A) (l : list Z) (xs : list A) :
  length xs = length l -> exists a', Jnp.at_set a (Array l) (Array xs) = Ok a'.
Proof.
  intros H. unfold Jnp.at_set.
  destruct xs as [|x [|y xs]]; try (eexists; reflexivity).
  - rewrite H, Nat.eqb_refl. eexists; reflexivity.
  - rewrite H, Nat.eqb_refl. eexists; reflexivity.
Qed.

Lemma len_map {A B : Type} (f : A -> B) (l : list A) :
  Jnp.len (map f l) = Jnp.len l.
Proof.
  unfold Jnp.len. now rewrite length_map.
Qed.

(** ** Across the boundary of [jax.jit] *)

Lemma hand_back_trace {A : Type} (j : traced A) :
  hand_back (is_tracer j) (trace j) = j.
Proof.
  destruct j; reflexivity.
Qed.

(** [unique] hands an array of one element back as it got it; for any
    other length, the empty one included, it raises on line 16. *)
Lemma unique_one (j : traced (list Z)) :
  Jnp.len (value_of j) = 1 -> unique j = Ok j.
Proof.
  intros H. unfold unique. cbn [trace value_of].
  rewrite H. cbn [Z.eqb Pos.eqb bind]. f_equal. apply hand_back_trace.
Qed.

Lemma unique_other (j : traced (list Z)) :
  Jnp.len (value_of j) <> 1 -> unique j = Raise (TypeError 16).
Proof.
  intros H. unfold unique. cbn [trace value_of].
  apply Z.eqb_neq in H. rewrite H. reflexivity.
Qed.

(** ** The capacity test *)

Lemma land_pred_power_of_two (k : nat) :
  Z.land (2 ^ Z.of_nat k) (2 ^ Z.of_nat k - 1) = 0.
Proof.
  change (2 ^ Z.of_nat k - 1) with (Z.pred (2 ^ Z.of_nat k)).
  rewrite <- Z.ones_equiv, Z.land_ones by lia.
  apply Z.mod_same. apply Z.pow_nonzero; lia.
Qed.

Lemma land_pred_zero (c : Z) :
  0 < c -> Z.land c (c - 1) = 0 -> power_of_two c.
Proof.
  intros Hc Hl. exists (Z.to_nat (Z.log2 c)).
  rewrite Z2Nat.id by apply Z.log2_nonneg.
  destruct (Z.log2_spec c Hc) as [Hlo Hhi].
  destruct (Z.eq_dec c (2 ^ Z.log2 c)) as [|Hne]; [assumption|exfalso].
  assert (Hk : Z.log2 (c - 1) = Z.log2 c).
  { apply Z.log2_unique; [apply Z.log2_nonneg|lia]. }
  assert (Hb : Z.testbit (Z.land c (c - 1)) (Z.log2 c) = true).
  { rewrite Z.land_spec, Z.bit_log2 by lia.
    rewrite <- Hk. rewrite Z.bit_log2; [reflexivity|].
    assert (0 < 2 ^ Z.log2 c) by (apply Z.pow_pos_nonneg;
                                  [lia|apply Z.log2_nonneg]).
    lia. }
  rewrite Hl, Z.bits_0 in Hb. discriminate.
Qed.

Lemma capacity_test (c : Z) :
  (0 <? c) && (Z.land c (c - 1) =? 0) = true <-> 0 < c /\ power_of_two c.
Proof.
  rewrite andb_true_iff, Z.ltb_lt, Z.eqb_eq. split.
  - intros [Hc Hl]. split; [exact Hc|now apply land_pred_zero].
  - intros [Hc [k ->]]. split; [exact Hc|apply land_pred_power_of_two].
Qed.

(** ** The jitted helpers of the engine *)

Section Jitted.
Variable V : Type.
Variable op : V -> V -> V.
Variable e : V.

Let tree := SegmentTree.t V.
Let cap (self : tree) := SegmentTree._capacity V self.

(** Line 51 compares two tracers and asks for the truth of the result:
    the helper raises there on every call, before it recurses. *)
Lemma reduce_helper_raises (fuel : nat) (v : traced (list V))
    (start end_ node node_start node_end : traced Z) :
  SegmentTree._reduce_helper V op e fuel v start end_ node node_start node_end
  = Raise (TypeError 51).
Proof.
  destruct fuel; reflexivity.
Qed.

Lemma reduce_raises (fuel : nat) (self : tree) (start : Z)
    (end_ : option Z) :
  SegmentTree.reduce V op e fuel self start end_ = Raise (TypeError 51).
Proof.
  unfold SegmentTree.reduce. rewrite reduce_helper_raises. reflexivity.
Qed.

(** With one index left, the condition of the loop asks for an entry of
    a tracer. *)
Lemma setitem_loop_raises (fuel : nat) (v : traced (list V)) (l : list Z) :
  Jnp.len l = 1 ->
  SegmentTree._setitem_loop V op e fuel v (Tracer l) = Raise (TypeError 86).
Proof.
  intros H. destruct fuel; cbn [SegmentTree._setitem_loop value_of];
    rewrite H; reflexivity.
Qed.

Lemma setitem_helper_raises (fuel : nat) (v : traced (list V))
    (idxs : traced (list Z)) :
  SegmentTree._setitem_helper V op e fuel v idxs
  = Raise (TypeError (if Jnp.len (value_of idxs) =? 1 then 86 else 16)).
Proof.
  unfold SegmentTree._setitem_helper. cbn [trace op1].
  destruct (Jnp.len (value_of idxs) =? 1) eqn:Hl.
  - apply Z.eqb_eq in Hl.
    rewrite unique_one by (cbn [value_of]; now rewrite len_map).
    cbn [bind]. rewrite setitem_loop_raises by now rewrite len_map.
    reflexivity.
  - apply Z.eqb_neq in Hl.
    rewrite unique_other by (cbn [value_of]; now rewrite len_map).
    reflexivity.
Qed.

(** [__setitem__] assigns only what the helper returns, and the helper
    returns nothing. *)
Lemma setitem_state (fuel : nat) (self : tree) (idx : arg Z) (val : arg V) :
  fst (SegmentTree.__setitem__ V op e fuel self idx val) = self.
Proof.
  unfold SegmentTree.__setitem__.
  destruct (Jnp.at_set _ _ _); [|reflexivity|reflexivity].
  rewrite setitem_helper_raises. reflexivity.
Qed.

Lemma setitem_raises (fuel : nat) (self : tree) (idx : arg Z) (val : arg V) :
  exists x, snd (SegmentTree.__setitem__ V op e fuel self idx val) = Raise x.
Proof.
  unfold SegmentTree.__setitem__.
  destruct (Jnp.at_set _ _ _) as [a|x|] eqn:Ha.
  - rewrite setitem_helper_raises. eexists; reflexivity.
  - eexists; reflexivity.
  - exfalso. destruct idx as [i|l], val as [x|xs]; cbn in Ha;
      try discriminate.
    destruct xs as [|x [|y xs]]; try discriminate;
      destruct (_ =? _)%nat; discriminate.
Qed.

Lemma setitem_scalar (fuel : nat) (self : tree) (i : Z) (v : V) :
  SegmentTree.__setitem__ V op e fuel self (Scalar i) (Scalar v)
  = (self, Raise (TypeError 86)).
Proof.
  unfold SegmentTree.__setitem__. cbn [arg_map Jnp.at_set].
  rewrite setitem_helper_raises. reflexivity.
Qed.

Lemma setitem_batch (fuel : nat) (self : tree) (idxs : list Z)
    (vals : list V) :
  length vals = length idxs ->
  SegmentTree.__setitem__ V op e fuel self (Array idxs) (Array vals)
  = (self, Raise (TypeError (if Jnp.len idxs =? 1 then 86 else 16))).
Proof.
  intros H. unfold SegmentTree.__setitem__. cbn [arg_map].
  destruct (at_set_arrays (SegmentTree._value V self)
              (map (fun i => i + SegmentTree._capacity V self) idxs) vals)
    as [a Ha]; [now rewrite length_map|].
  rewrite Ha, setitem_helper_raises. cbn [value_of].
  rewrite len_map. reflexivity.
Qed.

Lemma apply_call_state (fuel : nat) (self : tree) (c : call V) :
  fst (apply_call V op e fuel self c) = self.
Proof.
  destruct c; apply setitem_state.
Qed.

Lemma run_calls_state (fuel : nat) (self : tree) (cs : list (call V)) :
  fst (run_calls V op e fuel self cs) = self.
Proof.
  revert self; induction cs as [|c cs IH]; intros self; [reflexivity|].
  cbn [run_calls].
  pose proof (apply_call_state fuel self c) as Hc.
  destruct (apply_call V op e fuel self c) as [self' r].
  cbn [fst] in Hc. subst self'.
  specialize (IH self).
  destruct (run_calls V op e fuel self cs) as [self'' rs].
  exact IH.
Qed.

Lemma run_calls_outcomes (fuel : nat) (self : tree) (cs : list (call V)) :
  Forall (fun r => exists x, r = Raise x)
         (snd (run_calls V op e fuel self cs)).
Proof.
  revert self; induction cs as [|c cs IH]; intros self; [constructor|].
  cbn [run_calls].
  pose proof (apply_call_state fuel self c) as Hc.
  assert (Hr : exists x, snd (apply_call V op e fuel self c) = Raise x)
    by (destruct c; apply setitem_raises).
  destruct (apply_call V op e fuel self c) as [self' r].
  cbn [fst snd] in Hc, Hr. subst self'.
  specialize (IH self).
  destruct (run_calls V op e fuel self cs) as [self'' rs].
  cbn [snd] in *. now constructor.
Qed.

(** ** Reading slots *)

Lemma getitem_leaf (self : tree) (i : Z) :
  0 <= i < cap self ->
  SegmentTree.__getitem__ V e self (Scalar i) = Ok (Scalar (leaf V e self i)).
Proof.
  intros H. unfold SegmentTree.__getitem__, SegmentTree.arg_max,
    SegmentTree.arg_min, py_assert. cbn [bind].
  replace (i <? SegmentTree._capacity V self) with true
    by (symmetry; apply Z.ltb_lt; exact (proj2 H)).
  cbn [bind].
  replace (0 <=? i) with true by (symmetry; apply Z.leb_le; lia).
  reflexivity.
Qed.


Lemma getitem_ends (self : tree) (idx : arg Z) :
  ends (SegmentTree.__getitem__ V e self idx).
Proof.
  unfold SegmentTree.__getitem__, py_assert.
  destruct (SegmentTree.arg_max idx) as [m| |] eqn:Hmax; cbn [bind ends];
    try exact I.
  - destruct (m <? _); cbn [bind]; [|exact I].
    destruct (SegmentTree.arg_min idx) as [n| |] eqn:Hmin; cbn [bind ends];
      try exact I.
    + destruct (0 <=? n); exact I.
    + destruct idx as [x|[|x l]]; discriminate.
  - destruct idx as [x|[|x l]]; discriminate.
Qed.

Lemma fold_left_max_lt (c x : Z) (l : list Z) :
  fold_left Z.max l x < c <-> Forall (fun i => i < c) (x :: l).
Proof.
  revert x; induction l as [|y l IH]; intros x; cbn [fold_left].
  - split; [intros H; repeat constructor; exact H|].
    intros H. now apply Forall_inv in H.
  - rewrite IH. split; intros H.
    + apply Forall_inv in H as Hm. apply Forall_inv_tail in H.
      repeat constructor; try assumption; lia.
    + apply Forall_inv in H as Hx. apply Forall_inv_tail in H.
      apply Forall_inv in H as Hy. apply Forall_inv_tail in H.
      constructor; [lia|exact H].
Qed.

Lemma fold_left_min_ge (x : Z) (l : list Z) :
  0 <= fold_left Z.min l x <-> Forall (fun i => 0 <= i) (x :: l).
Proof.
  revert x; induction l as [|y l IH]; intros x; cbn [fold_left].
  - split; [intros H; repeat constructor; exact H|].
    intros H. now apply Forall_inv in H.
  - rewrite IH. split; intros H.
    + apply Forall_inv in H as Hm. apply Forall_inv_tail in H.
      repeat constructor; try assumption; lia.
    + apply Forall_inv in H as Hx. apply Forall_inv_tail in H.
      apply Forall_inv in H as Hy. apply Forall_inv_tail in H.
      constructor; [lia|exact H].
Qed.

(** ** Construction *)



Lemma init_capacity (c : Z) (self : tree) :
  SegmentTree.__init__ V e c = Ok self ->
  0 < c /\ power_of_two c /\
  self = SegmentTree.Build V c (repeat e (Z.to_nat (2 * c))).
Proof.
  unfold SegmentTree.__init__, py_assert. intros H.
  destruct ((0 <? c) && (Z.land c (c - 1) =? 0)) eqn:Ht; [|discriminate].
  apply capacity_test in Ht. destruct Ht as [Hc Hp].
  inversion H. repeat split; assumption.
Qed.

Lemma full_consistent (c : Z) :
  0 < c -> op e e = e ->
  consistent V op e (SegmentTree.Build V c (repeat e (Z.to_nat (2 * c)))).
Proof.
  intros Hc He k Hk. unfold storage. cbn [SegmentTree._value].
  change (repeat e (Z.to_nat (2 * c))) with (Jnp.full (2 * c) e).
  rewrite !get_full by lia. symmetry; exact He.
Qed.

End Jitted.

(** ** The prefix-sum search *)

(** The condition of the loop, line 136, asks for the truth of a
    tracer: the helper raises there on every call. *)
Lemma find_helper_raises (fuel : nat) (self : SumSegmentTree.t)
    (v p : traced (list Qc)) :
  SumSegmentTree._find_prefixsum_idx_helper fuel self v p
  = Raise (TypeError 136).
Proof.
  unfold SumSegmentTree._find_prefixsum_idx_helper.
  destruct fuel; reflexivity.
Qed.

(** The search never gets past its assertions: [self.sum()], called for
    the second one, raises. *)
Lemma find_outcome (fuel : nat) (self : SumSegmentTree.t)
    (prefixsum : SumSegmentTree.targets) :
  SumSegmentTree.find_prefixsum_idx fuel self prefixsum
  = (lo <- SumSegmentTree.array_min (SumSegmentTree.targets_array prefixsum) ;;
     do_ py_assert 162 (SumSegmentTree.leb 0%Qc lo) ;;
     Raise (TypeError 51)).
Proof.
  unfold SumSegmentTree.find_prefixsum_idx, SumSegmentTree.sum.
  rewrite reduce_raises.
  destruct (SumSegmentTree.targets_array prefixsum) as [|x l];
    [reflexivity|].
  cbn [SumSegmentTree.array_min SumSegmentTree.array_max bind].
  destruct (py_assert 162 _); reflexivity.
Qed.

Lemma leb_le (x y : Qc) : SumSegmentTree.leb x y = true <-> (x <= y)%Qc.
Proof.
  unfold SumSegmentTree.leb. rewrite Qcle_alt.
  destruct (x ?= y)%Qc; split; intros H; congruence.
Qed.

Lemma leb_gt (x y : Qc) : SumSegmentTree.leb x y = false <-> (y < x)%Qc.
Proof.
  unfold SumSegmentTree.leb.
  change (y < x)%Qc with (x > y)%Qc. rewrite Qcgt_alt.
  destruct (x ?= y)%Qc; split; intros H; congruence.
Qed.

(** The least target of a batch is not negative exactly when none is. *)
Lemma array_min_nonneg (x : Qc) (l : list Qc) :
  SumSegmentTree.leb 0%Qc
    (fold_left (fun m y => if SumSegmentTree.leb y m then y else m) l x)
  = true
  <-> Forall (fun p => (0 <= p)%Qc) (x :: l).
Proof.
  revert x; induction l as [|y l IH]; intros x; cbn [fold_left].
  - rewrite leb_le. split; [intros H; repeat constructor; exact H|].
    intros H. now apply Forall_inv in H.
  - rewrite IH. destruct (SumSegmentTree.leb y x) eqn:Hyx; split; intros H.
    + apply leb_le in Hyx.
      apply Forall_inv in H as Hy. apply Forall_inv_tail in H.
      constructor; [|constructor; assumption].
      eapply Qcle_trans; eassumption.
    + apply Forall_inv_tail in H. exact H.
    + apply Forall_inv in H as Hx. apply Forall_inv_tail in H.
      apply leb_gt in Hyx.
      constructor; [exact Hx|]. constructor; [|exact H].
      apply Qclt_le_weak. eapply Qcle_lt_trans; eassumption.
    + apply Forall_inv in H as Hx. apply Forall_inv_tail in H.
      apply Forall_inv_tail in H. constructor; assumption.
Qed.

(** * Main results *)

Ltac concrete :=
  unfold shaped, int32; cbn; repeat split; try lia; try discriminate.

(** C1, on the code.  In the scenario of the specification (capacity 8,
    sum tree, every leaf 0.0) the call [set(3, 5.0)] does not complete:
    whatever the fuel, it ends in the [TypeError] that line 86 raises
    inside the jitted [_setitem_helper], and the assignment of line 104 is
    not reached, so the tree is the one it was.  A caller that goes on
    reads 0.0 at slot 3, not 5.0, and [sum(0, 8)] gives no number either:
    it raises on line 51 inside the jitted [_reduce_helper]. *)
Theorem set_then_get_scenario :
  SumSegmentTree.__init__ 8 = Ok fresh8 /\
  (forall fuel,
     SumSegmentTree.__setitem__ fuel fresh8 (Scalar 3) (Scalar (Qc_of_Z 5))
     = (fresh8, Raise (TypeError 86))) /\
  SumSegmentTree.__getitem__ fresh8 (Scalar 3) = Ok (Scalar 0%Qc) /\
  0%Qc <> Qc_of_Z 5 /\
  (forall fuel,
     SumSegmentTree.sum fuel fresh8 0 (Some 8) = Raise (TypeError 51)).
Proof.
  split; [reflexivity|].
  split; [intros fuel; apply setitem_scalar|].
  split; [reflexivity|].
  split; [discriminate|].
  intros fuel. apply reduce_raises.
Qed.

(** C2.  Tree consistency holds after every sequence of [set] and
    [setBatch] calls, whatever their indices: a tree in which every
    internal node holds the operation of its two children is such a tree
    after the calls, and so is every tree that the constructor built, as
    soon as combining the neutral element with itself gives it back.  In
    this code it holds because every one of the calls ends in an exception
    before line 104 assigns, the caller going on after each: the storage
    after the calls is the storage before. *)
Theorem consistency_after_updates (V : Type) (op : V -> V -> V) (e : V)
    (self : SegmentTree.t V) (cs : list (call V)) (fuel : nat) :
  (consistent V op e self ->
   consistent V op e (fst (run_calls V op e fuel self cs))) /\
  (forall c, op e e = e -> SegmentTree.__init__ V e c = Ok self ->
   consistent V op e (fst (run_calls V op e fuel self cs))) /\
  Forall (fun r => exists x, r = Raise x)
         (snd (run_calls V op e fuel self cs)).
Proof.
  rewrite run_calls_state. split; [intros H; exact H|].
  split; [|apply run_calls_outcomes].
  intros c He H. apply init_capacity in H. destruct H as [Hc [_ ->]].
  now apply full_consistent.
Qed.

Lemma consistency_after_updates_witness :
  consistent Qc Qcplus 0%Qc
    (fst (run_calls Qc Qcplus 0%Qc 5 fresh8
            [Set_ 3 (Qc_of_Z 5); SetBatch [1; 6] [Qc_of_Z 2; Qc_of_Z 4];
             Set_ 0 (Qc_of_Z 1)])) /\
  Forall (fun r => exists x, r = Raise x)
    (snd (run_calls Qc Qcplus 0%Qc 5 fresh8
            [Set_ 3 (Qc_of_Z 5); SetBatch [1; 6] [Qc_of_Z 2; Qc_of_Z 4];
             Set_ 0 (Qc_of_Z 1)])).
Proof.
  split.
  - apply (proj1 (proj2 (consistency_after_updates Qc Qcplus 0%Qc fresh8
             [Set_ 3 (Qc_of_Z 5); SetBatch [1; 6] [Qc_of_Z 2; Qc_of_Z 4];
              Set_ 0 (Qc_of_Z 1)] 5)) 8);
      [apply Qcplus_0_l|reflexivity].
  - apply (consistency_after_updates Qc Qcplus 0%Qc fresh8).
Defined.

(** C3, on the code.  On a tree of the constructor's shape and a range
    with [0 <= start < end <= capacity], [reduce(start, end)] does not
    return the operation folded over the leaves of the range, nor anything
    else: whatever the fuel, it ends in the [TypeError] of line 51, where
    the jitted [_reduce_helper] asks for the truth of a comparison of
    tracers.  [SumSegmentTree.sum] and [MinSegmentTree.min] are this
    [reduce]. *)
Theorem reduce_raises_on_every_range (V : Type) (op : V -> V -> V) (e : V)
    (self : SegmentTree.t V) (start stop : Z) (fuel : nat) :
  shaped V self ->
  0 <= start < stop ->
  stop <= SegmentTree._capacity V self ->
  SegmentTree.reduce V op e fuel self start (Some stop)
  = Raise (TypeError 51) /\
  SegmentTree.reduce V op e fuel self start (Some stop)
  <> Ok (fold1 op e (leaves V e self start stop)).
Proof.
  intros _ _ _. rewrite reduce_raises. split; [reflexivity|discriminate].
Qed.

Lemma reduce_raises_on_every_range_witness :
  SegmentTree.reduce Qc Qcplus 0%Qc 4 fresh8 0 (Some 8)
  = Raise (TypeError 51) /\
  SegmentTree.reduce Qc Qcplus 0%Qc 4 fresh8 0 (Some 8)
  <> Ok (fold1 Qcplus 0%Qc (leaves Qc 0%Qc fresh8 0 8)).
Proof.
  apply (reduce_raises_on_every_range Qc Qcplus 0%Qc fresh8 0 8 4);
    concrete.
Defined.

(** The two instances of C3 on fresh trees: the sum of eight leaves 0.0
    would be 0.0, the minimum of four leaves [inf] would be [inf]. *)
Lemma sum_and_min_examples :
  fold1 Qcplus 0%Qc (leaves Qc 0%Qc fresh8 0 8) = 0%Qc /\
  (forall fuel,
     SumSegmentTree.sum fuel fresh8 0 (Some 8) = Raise (TypeError 51)) /\
  (forall fuel,
     SumSegmentTree.sum fuel fresh8 0 None = Raise (TypeError 51)) /\
  MinSegmentTree.__init__ 4 = Ok fresh_min4 /\
  fold1 MinSegmentTree.minimum MinSegmentTree.Inf
    (leaves MinSegmentTree.value MinSegmentTree.Inf fresh_min4 0 4)
  = MinSegmentTree.Inf /\
  (forall fuel,
     MinSegmentTree.min fuel fresh_min4 0 (Some 4) = Raise (TypeError 51)).
Proof.
  split; [apply Qc_is_canon; reflexivity|].
  split; [intros fuel; apply reduce_raises|].
  split; [intros fuel; apply reduce_raises|].
  split; [reflexivity|].
  split; [reflexivity|].
  intros fuel; apply reduce_raises.
Qed.

(** C4, on the code.  No target is answered with the leaf of the
    described descent.  On the tree [SumSegmentTree(8)] the descent for
    the target 0.0 goes right at every node and reaches slot 7; the call,
    given the target as an array or as a float, ends in the [TypeError]
    of line 51: the assertion of line 163 calls [self.sum()].  The
    helper, called by itself, ends in the [TypeError] of line 136, the
    condition of its loop.  The leaves of the scenario cannot be written,
    in a batch or one by one; and were the storage the scenario's, where
    the descent for 1.5 reaches slot 1, the call and the helper would end
    in the same two errors. *)
Theorem find_prefixsum_idx_scenario :
  spec_findPrefixSumIndex fresh8 0%Qc = Some 7 /\
  (forall fuel,
     SumSegmentTree.find_prefixsum_idx fuel fresh8
       (SumSegmentTree.NdArray [0%Qc])
     = Raise (TypeError 51)) /\
  (forall fuel,
     SumSegmentTree.find_prefixsum_idx fuel fresh8
       (SumSegmentTree.PyFloat 0%Qc)
     = Raise (TypeError 51)) /\
  (forall fuel,
     SumSegmentTree._find_prefixsum_idx_helper fuel fresh8
       (Concrete (SegmentTree._value Qc fresh8)) (Concrete [0%Qc])
     = Raise (TypeError 136)) /\
  (forall fuel,
     SumSegmentTree.__setitem__ fuel fresh8 (Array [0; 1; 2; 3])
       (Array (map Qc_of_Z [1; 2; 3; 5]))
     = (fresh8, Raise (TypeError 16))) /\
  (forall fuel,
     SumSegmentTree.__setitem__ fuel fresh8 (Scalar 0) (Scalar (Qc_of_Z 1))
     = (fresh8, Raise (TypeError 86))) /\
  spec_findPrefixSumIndex scenario8 (Q2Qc (3 # 2)) = Some 1 /\
  (forall fuel,
     SumSegmentTree.find_prefixsum_idx fuel scenario8
       (SumSegmentTree.NdArray [Q2Qc (3 # 2)])
     = Raise (TypeError 51)) /\
  (forall fuel,
     SumSegmentTree._find_prefixsum_idx_helper fuel scenario8
       (Concrete (SegmentTree._value Qc scenario8))
       (Concrete [Q2Qc (3 # 2)])
     = Raise (TypeError 136)).
Proof.
  split; [vm_compute; reflexivity|].
  split; [intros fuel; rewrite find_outcome; reflexivity|].
  split; [intros fuel; rewrite find_outcome; reflexivity|].
  split; [intros fuel; apply find_helper_raises|].
  split.
  { intros fuel.
    exact (setitem_batch Qc Qcplus 0%Qc fuel fresh8 [0; 1; 2; 3]
             (map Qc_of_Z [1; 2; 3; 5]) eq_refl). }
  split; [intros fuel; apply setitem_scalar|].
  split; [vm_compute; reflexivity|].
  split; [intros fuel; rewrite find_outcome; reflexivity|].
  intros fuel; apply find_helper_raises.
Qed.

(** C5.  Every operation ends, on every input and with any fuel, none at
    all included: no turn of a loop and no level of a recursion is ever
    taken.  [__init__], [__getitem__] and [unique] have neither; [reduce]
    ends on line 51 before [_reduce_helper] calls itself; [set] and
    [setBatch] end on line 16 or on line 86, the condition of the ancestor
    loop; [find_prefixsum_idx] ends in its assertions, and its helper on
    line 136, the condition of the descent loop. *)
Theorem every_operation_ends (V : Type) (op : V -> V -> V) (e : V)
    (fuel : nat) :
  (forall c, ends (SegmentTree.__init__ V e c)) /\
  (forall self idx, ends (SegmentTree.__getitem__ V e self idx)) /\
  (forall sorted_array, ends (unique sorted_array)) /\
  (forall self start end_,
     ends (SegmentTree.reduce V op e fuel self start end_)) /\
  (forall self idx val,
     ends (snd (SegmentTree.__setitem__ V op e fuel self idx val))) /\
  (forall v idxs, ends (SegmentTree._setitem_helper V op e fuel v idxs)) /\
  (forall self prefixsum,
     ends (SumSegmentTree.find_prefixsum_idx fuel self prefixsum)) /\
  (forall self v prefixsum,
     ends (SumSegmentTree._find_prefixsum_idx_helper fuel self v
             prefixsum)).
Proof.
  split.
  { intros c. unfold SegmentTree.__init__, py_assert.
    destruct (_ && _); exact I. }
  split; [intros self idx; apply getitem_ends|].
  split.
  { intros a. destruct (Z.eq_dec (Jnp.len (value_of a)) 1) as [H|H].
    - rewrite unique_one by exact H. exact I.
    - rewrite unique_other by exact H. exact I. }
  split; [intros self start end_; rewrite reduce_raises; exact I|].
  split.
  { intros self idx val.
    destruct (setitem_raises V op e fuel self idx val) as [x ->]. exact I. }
  split; [intros v idxs; rewrite setitem_helper_raises; exact I|].
  split.
  { intros self prefixsum. rewrite find_outcome.
    destruct (SumSegmentTree.array_min _) as [lo|x|] eqn:Hmin;
      cbn [bind]; try exact I.
    - unfold py_assert. destruct (SumSegmentTree.leb _ _); exact I.
    - destruct (SumSegmentTree.targets_array prefixsum); discriminate. }
  intros self v prefixsum. rewrite find_helper_raises. exact I.
Qed.

(** C6.  A batch update and the sequence of single updates of the same
    indices and values, in any order, leave the same storage.  In this
    code it is the storage the tree had: the batch ends in an exception,
    and so does each of the single updates, the caller going on after
    each. *)
Theorem batch_equals_sequential (V : Type) (op : V -> V -> V) (e : V)
    (self : SegmentTree.t V) (idxs : list Z) (vals : list V) (fuel : nat) :
  SegmentTree._value V
    (fst (apply_call V op e fuel self (SetBatch idxs vals)))
  = SegmentTree._value V
      (fst (run_calls V op e fuel self (sequential_sets V idxs vals))) /\
  SegmentTree._value V
    (fst (run_calls V op e fuel self (sequential_sets V idxs vals)))
  = SegmentTree._value V self.
Proof.
  rewrite apply_call_state, run_calls_state. split; reflexivity.
Qed.




(** The two assertions of [get]: an index at or above the capacity fails
    the first, a negative one the second. *)
Lemma get_out_of_range_examples :
  SumSegmentTree.__getitem__ fresh8 (Scalar 8)
  = Raise (AssertionError 107) /\
  SumSegmentTree.__getitem__ fresh8 (Scalar (-1))
  = Raise (AssertionError 108).
Proof. split; reflexivity. Qed.

(** C8, on the code.  The range check of [find_prefixsum_idx] does not
    tell the targets above the total from those within it.  On a sum tree
    of the constructor's shape a negative target fails the assertion of
    line 162; every other target, within [0, total + epsilon] or above,
    given as a float or in an array, ends in the [TypeError] of line 51,
    raised by the call [self.sum()] inside the assertion of line 163,
    which is therefore never decided: that is not [PrefixSumOutOfRange].
    The method assigns nothing, so the tree is in each case the one it
    was. *)
Theorem find_prefixsum_idx_range_check (self : SumSegmentTree.t) (p : Qc)
    (fuel : nat) :
  shaped Qc self ->
  ((0 <= p)%Qc ->
   SumSegmentTree.find_prefixsum_idx fuel self (SumSegmentTree.PyFloat p)
   = Raise (TypeError 51) /\
   SumSegmentTree.find_prefixsum_idx fuel self (SumSegmentTree.NdArray [p])
   = Raise (TypeError 51) /\
   ~ PrefixSumOutOfRange
       (SumSegmentTree.find_prefixsum_idx fuel self
          (SumSegmentTree.PyFloat p))) /\
  ((p < 0)%Qc ->
   SumSegmentTree.find_prefixsum_idx fuel self (SumSegmentTree.PyFloat p)
   = Raise (AssertionError 162) /\
   SumSegmentTree.find_prefixsum_idx fuel self (SumSegmentTree.NdArray [p])
   = Raise (AssertionError 162)).
Proof.
  intros _. rewrite !find_outcome.
  cbn [SumSegmentTree.targets_array SumSegmentTree.array_min fold_left bind].
  unfold py_assert. split.
  - intros Hp. apply leb_le in Hp. rewrite Hp. cbn [bind].
    repeat split. intros [H|H]; discriminate.
  - intros Hp. apply leb_gt in Hp. rewrite Hp. split; reflexivity.
Qed.

(** The instance of C8 that the specification names: on
    [SumSegmentTree(8)] the total is 0.0, and the target [0.0 + 1.0] is
    not rejected as out of range. *)
Lemma find_prefixsum_idx_range_check_witness :
  SumSegmentTree.find_prefixsum_idx 5 fresh8
    (SumSegmentTree.PyFloat (Qc_of_Z 1))
  = Raise (TypeError 51) /\
  SumSegmentTree.find_prefixsum_idx 5 fresh8
    (SumSegmentTree.NdArray [Qc_of_Z 1])
  = Raise (TypeError 51) /\
  ~ PrefixSumOutOfRange
      (SumSegmentTree.find_prefixsum_idx 5 fresh8
         (SumSegmentTree.PyFloat (Qc_of_Z 1))).
Proof.
  apply (find_prefixsum_idx_range_check fresh8 (Qc_of_Z 1) 5).
  - concrete.
  - unfold Qcle, Qle. vm_compute. discriminate.
Defined.

Lemma find_prefixsum_idx_range_examples :
  (forall fuel,
     SumSegmentTree.find_prefixsum_idx fuel fresh8
       (SumSegmentTree.PyFloat 0%Qc)
     = Raise (TypeError 51)) /\
  (forall fuel,
     SumSegmentTree.find_prefixsum_idx fuel fresh8
       (SumSegmentTree.PyFloat (Qc_of_Z (-1)))
     = Raise (AssertionError 162)).
Proof.
  split; intros fuel; rewrite find_outcome; reflexivity.
Qed.



(** Capacities the constructor turns down: 0, a negative number, and 6. *)
Lemma construction_rejects_examples :
  SumSegmentTree.__init__ 0 = Raise (AssertionError 41) /\
  SumSegmentTree.__init__ (-4) = Raise (AssertionError 41) /\
  SumSegmentTree.__init__ 6 = Raise (AssertionError 41) /\
  MinSegmentTree.__init__ 12 = Raise (AssertionError 41).
Proof. repeat split. Qed.



(** * Further properties *)



(** X3.  No update is made: on a tree of the constructor's shape, with
    indices that fit [int32], [set(i, v)] ends in the [TypeError] of line
    86; [setBatch], given one value for each index, ends there as well
    when the batch has one index, and in the [TypeError] of line 16 for
    every other length, the empty batch included.  Whatever the arguments,
    the tree after the call is the tree before it. *)
Theorem set_changes_nothing (V : Type) (op : V -> V -> V) (e : V)
    (self : SegmentTree.t V) (fuel : nat) :
  shaped V self ->
  (forall i v,
     int32 (i + SegmentTree._capacity V self) ->
     SegmentTree.__setitem__ V op e fuel self (Scalar i) (Scalar v)
     = (self, Raise (TypeError 86))) /\
  (forall idxs vals,
     length vals = length idxs ->
     Forall (fun i => int32 (i + SegmentTree._capacity V self)) idxs ->
     SegmentTree.__setitem__ V op e fuel self (Array idxs) (Array vals)
     = (self, Raise (TypeError (if Jnp.len idxs =? 1 then 86 else 16)))) /\
  (forall idx val,
     fst (SegmentTree.__setitem__ V op e fuel self idx val) = self).
Proof.
  intros _. split; [intros i v _; apply setitem_scalar|].
  split; [intros idxs vals H _; now apply setitem_batch|].
  intros idx val; apply setitem_state.
Qed.

Lemma set_changes_nothing_witness :
  SegmentTree.__setitem__ Qc Qcplus 0%Qc 5 fresh8 (Scalar 3)
    (Scalar (Qc_of_Z 5))
  = (fresh8, Raise (TypeError 86)) /\
  SegmentTree.__setitem__ Qc Qcplus 0%Qc 5 fresh8 (Array [2])
    (Array [Qc_of_Z 5])
  = (fresh8, Raise (TypeError 86)) /\
  SegmentTree.__setitem__ Qc Qcplus 0%Qc 5 fresh8 (Array [6; 1])
    (Array [Qc_of_Z 5; Qc_of_Z 2])
  = (fresh8, Raise (TypeError 16)) /\
  SegmentTree.__setitem__ Qc Qcplus 0%Qc 5 fresh8 (Array []) (Array [])
  = (fresh8, Raise (TypeError 16)).
Proof.
  assert (Hs : shaped Qc fresh8) by concrete.
  destruct (set_changes_nothing Qc Qcplus 0%Qc fresh8 5 Hs) as [H1 [H2 _]].
  split; [apply H1; concrete|].
  split; [apply (H2 [2] [Qc_of_Z 5]); [reflexivity|repeat constructor; concrete]|].
  split; [apply (H2 [6; 1] [Qc_of_Z 5; Qc_of_Z 2]);
          [reflexivity|repeat constructor; concrete]|].
  apply (H2 [] []); [reflexivity|constructor].
Defined.

(** X4.  The jitted [_find_prefixsum_idx_helper] makes no turn of its
    loop: whatever the storage and the targets it is given, and with no
    fuel at all, it ends in the [TypeError] of line 136, where [while]
    asks for the truth of [jnp.any(cont)]. *)
Theorem find_helper_stops_at_its_loop (self : SumSegmentTree.t)
    (_value prefixsum : traced (list Qc)) (fuel : nat) :
  SumSegmentTree._find_prefixsum_idx_helper fuel self _value prefixsum
  = Raise (TypeError 136).
Proof.
  apply find_helper_raises.
Qed.

(** X6.  Reading a batch of slots from a tree of the constructor's
    shape, with indices that fit [int32]: when every index is in [0,
    capacity) [__getitem__] returns the leaves in the order asked, repeats
    included; as soon as one index is out of range it fails, on the first
    assertion when some index reaches the capacity and on the second
    otherwise, and returns no part of the batch. *)
Theorem get_batch (V : Type) (e : V) (self : SegmentTree.t V)
    (idxs : list Z) :
  shaped V self ->
  Forall int32 idxs ->
  idxs <> [] ->
  (Forall (fun i => 0 <= i < SegmentTree._capacity V self) idxs ->
   SegmentTree.__getitem__ V e self (Array idxs)
   = Ok (Array (map (leaf V e self) idxs))) /\
  (~ Forall (fun i => i < SegmentTree._capacity V self) idxs ->
   SegmentTree.__getitem__ V e self (Array idxs)
   = Raise (AssertionError 107)) /\
  (Forall (fun i => i < SegmentTree._capacity V self) idxs ->
   ~ Forall (fun i => 0 <= i) idxs ->
   SegmentTree.__getitem__ V e self (Array idxs)
   = Raise (AssertionError 108)).
Proof.
  intros _ _ Hne. destruct idxs as [|x l]; [congruence|].
  unfold SegmentTree.__getitem__, SegmentTree.arg_max, SegmentTree.arg_min,
    py_assert. cbn [bind].
  repeat split.
  - intros H.
    replace (fold_left Z.max l x <? SegmentTree._capacity V self) with true.
    + cbn [bind].
      replace (0 <=? fold_left Z.min l x) with true; [reflexivity|].
      symmetry. apply Z.leb_le. apply fold_left_min_ge.
      eapply Forall_impl; [|exact H]. cbn beta. lia.
    + symmetry. apply Z.ltb_lt. apply fold_left_max_lt.
      eapply Forall_impl; [|exact H]. cbn beta. lia.
  - intros H.
    replace (fold_left Z.max l x <? SegmentTree._capacity V self) with false;
      [reflexivity|].
    symmetry. apply Z.ltb_ge. apply Z.nlt_ge. intros Hlt.
    apply H. now apply fold_left_max_lt.
  - intros Hhi Hlo.
    replace (fold_left Z.max l x <? SegmentTree._capacity V self) with true
      by (symmetry; apply Z.ltb_lt; now apply fold_left_max_lt).
    cbn [bind].
    replace (0 <=? fold_left Z.min l x) with false; [reflexivity|].
    symmetry. apply Z.leb_gt. apply Z.nle_gt. intros Hge.
    apply Hlo. now apply fold_left_min_ge.
Qed.

Lemma get_batch_witness :
  SegmentTree.__getitem__ Qc 0%Qc fresh8 (Array [3; 0; 3])
  = Ok (Array (map (leaf Qc 0%Qc fresh8) [3; 0; 3])) /\
  SegmentTree.__getitem__ Qc 0%Qc fresh8 (Array [3; 8; -1])
  = Raise (AssertionError 107) /\
  SegmentTree.__getitem__ Qc 0%Qc fresh8 (Array [3; -1])
  = Raise (AssertionError 108).
Proof.
  assert (Hs : shaped Qc fresh8) by concrete.
  split; [|split].
  - apply (get_batch Qc 0%Qc fresh8 [3; 0; 3] Hs);
      [repeat constructor; concrete|discriminate|].
    repeat constructor; cbn; lia.
  - apply (get_batch Qc 0%Qc fresh8 [3; 8; -1] Hs);
      [repeat constructor; concrete|discriminate|].
    intros H. apply Forall_inv_tail in H. apply Forall_inv in H.
    cbn in H. lia.
  - apply (get_batch Qc 0%Qc fresh8 [3; -1] Hs);
      [repeat constructor; concrete|discriminate| |].
    + repeat constructor; cbn; lia.
    + intros H. apply Forall_inv_tail in H. apply Forall_inv in H. lia.
Defined.

(** X7.  [reduce] never recurses: on a tree of the constructor's shape,
    for every start and every end that fit [int32], the default end
    included, and whether the range is valid, empty or inverted, the call
    ends in the [TypeError] of line 51 with any fuel, none at all
    included. *)
Theorem reduce_never_recurses (V : Type) (op : V -> V -> V) (e : V)
    (self : SegmentTree.t V) (start : Z) (end_ : option Z) :
  shaped V self ->
  int32 start ->
  (forall stop, end_ = Some stop ->
     int32 (stop - 1) /\
     int32 (stop + SegmentTree._capacity V self - 1)) ->
  forall fuel,
    SegmentTree.reduce V op e fuel self start end_ = Raise (TypeError 51).
Proof.
  intros _ _ _ fuel. apply reduce_raises.
Qed.

Lemma reduce_never_recurses_witness :
  SegmentTree.reduce Qc Qcplus 0%Qc 0 fresh8 5 (Some 3)
  = Raise (TypeError 51) /\
  SegmentTree.reduce Qc Qcplus 0%Qc 0 fresh8 0 None
  = Raise (TypeError 51).
Proof.
  assert (Hs : shaped Qc fresh8) by concrete.
  split.
  - apply (reduce_never_recurses Qc Qcplus 0%Qc fresh8 5 (Some 3) Hs);
      [concrete|].
    intros stop H. injection H as <-. concrete.
  - apply (reduce_never_recurses Qc Qcplus 0%Qc fresh8 0 None Hs);
      [concrete|].
    intros stop H. discriminate.
Defined.

(** X9.  [find_prefixsum_idx] answers no index.  On a sum tree of the
    constructor's shape a batch with no target fails in [jnp.min]; a batch
    with a negative target fails the assertion of line 162; every other
    batch, and every float that is not negative, ends in the [TypeError]
    of line 51, inside the assertion of line 163. *)
Theorem find_prefixsum_idx_never_answers (self : SumSegmentTree.t)
    (prefixsum : SumSegmentTree.targets) (fuel : nat) :
  shaped Qc self ->
  (SumSegmentTree.targets_array prefixsum = [] ->
   SumSegmentTree.find_prefixsum_idx fuel self prefixsum
   = Raise ValueError) /\
  (SumSegmentTree.targets_array prefixsum <> [] ->
   Forall (fun p => (0 <= p)%Qc) (SumSegmentTree.targets_array prefixsum) ->
   SumSegmentTree.find_prefixsum_idx fuel self prefixsum
   = Raise (TypeError 51)) /\
  (~ Forall (fun p => (0 <= p)%Qc) (SumSegmentTree.targets_array prefixsum) ->
   SumSegmentTree.find_prefixsum_idx fuel self prefixsum
   = Raise (AssertionError 162)) /\
  (forall idx,
     SumSegmentTree.find_prefixsum_idx fuel self prefixsum <> Ok idx).
Proof.
  intros _. rewrite find_outcome.
  destruct (SumSegmentTree.targets_array prefixsum) as [|x l].
  - split; [reflexivity|]. split; [congruence|].
    split; [|discriminate].
    intros H; exfalso; apply H; constructor.
  - cbn [SumSegmentTree.array_min bind]. unfold py_assert.
    destruct (SumSegmentTree.leb 0%Qc _) eqn:Hlo; cbn [bind].
    + apply array_min_nonneg in Hlo.
      split; [discriminate|]. split; [reflexivity|].
      split; [|discriminate]. intros H; contradiction.
    + split; [discriminate|]. split; [|split; [reflexivity|discriminate]].
      intros _ H. apply array_min_nonneg in H. congruence.
Qed.

Lemma find_prefixsum_idx_never_answers_witness :
  SumSegmentTree.find_prefixsum_idx 5 fresh8 (SumSegmentTree.NdArray [])
  = Raise ValueError /\
  SumSegmentTree.find_prefixsum_idx 5 fresh8
    (SumSegmentTree.NdArray [0%Qc; Qc_of_Z 3])
  = Raise (TypeError 51) /\
  SumSegmentTree.find_prefixsum_idx 5 fresh8
    (SumSegmentTree.NdArray [0%Qc; Qc_of_Z (-3)])
  = Raise (AssertionError 162).
Proof.
  assert (Hs : shaped Qc fresh8) by concrete.
  split; [|split].
  - apply (find_prefixsum_idx_never_answers fresh8
             (SumSegmentTree.NdArray []) 5 Hs). reflexivity.
  - apply (find_prefixsum_idx_never_answers fresh8
             (SumSegmentTree.NdArray [0%Qc; Qc_of_Z 3]) 5 Hs).
    + discriminate.
    + repeat constructor; unfold Qcle, Qle; vm_compute; discriminate.
  - apply (find_prefixsum_idx_never_answers fresh8
             (SumSegmentTree.NdArray [0%Qc; Qc_of_Z (-3)]) 5 Hs).
    intros H. apply Forall_inv_tail in H. apply Forall_inv in H.
    revert H. unfold Qcle, Qle. vm_compute. intros H. now apply H.
Defined.

(** X10.  Updates are not seen: after construction with a capacity that
    fits [int32] and any sequence of [set] and [setBatch] calls, the
    caller going on after each exception, every slot still reads as the
    neutral element. *)
Theorem updates_are_not_seen (V : Type) (op : V -> V -> V) (e : V)
    (c : Z) (t0 : SegmentTree.t V) (cs : list (call V)) (fuel : nat)
    (i : Z) :
  SegmentTree.__init__ V e c = Ok t0 ->
  int32 (2 * c) ->
  0 <= i < c ->
  SegmentTree.__getitem__ V e (fst (run_calls V op e fuel t0 cs)) (Scalar i)
  = Ok (Scalar e).
Proof.
  intros H _ Hi. rewrite run_calls_state.
  apply init_capacity in H. destruct H as [Hc [_ ->]].
  rewrite getitem_leaf by exact Hi.
  unfold leaf, storage. cbn [SegmentTree._value SegmentTree._capacity].
  change (repeat e (Z.to_nat (2 * c))) with (Jnp.full (2 * c) e).
  rewrite get_full by lia. reflexivity.
Qed.

Lemma updates_are_not_seen_witness :
  SegmentTree.__getitem__ Qc 0%Qc
    (fst (run_calls Qc Qcplus 0%Qc 5 fresh8
            [Set_ 3 (Qc_of_Z 5); SetBatch [1; 6] [Qc_of_Z 2; Qc_of_Z 4]]))
    (Scalar 3)
  = Ok (Scalar 0%Qc).
Proof.
  apply (updates_are_not_seen Qc Qcplus 0%Qc 8 fresh8
           [Set_ 3 (Qc_of_Z 5); SetBatch [1; 6] [Qc_of_Z 2; Qc_of_Z 4]] 5 3);
    [reflexivity|concrete|lia].
Defined.
